(** * turn_off_leds.py: the Adalight "all off" command, verified

    A shallow embedding of [src/turn_off_leds.py].  Python's unbounded
    integers are [Z]; a [bytearray] is a [list Z] whose elements are kept in
    [range(0, 256)] by the checks of [append] and [extend]; exceptions are the
    left summand of a result; the calls on the serial port, [time.sleep] and
    [print] are recorded, in order, in a trace. *)

From Stdlib Require Import ZArith String Ascii List Bool Lia.
Import ListNotations.

Open Scope string_scope.
Open Scope list_scope.
Open Scope Z_scope.

(** ** Exceptions *)

(** The classes the two handlers of [turn_off_leds] tell apart:
    [serial.SerialException] (and its subclasses), and every other subclass of
    [Exception]; [ValueError] and [IndexError] are the two of those that the
    program's own operations raise. *)
Inductive exn_class : Type :=
| SerialException
| ValueError
| IndexError
| OtherException.

(** What a [raise] carries: an instance of a subclass of [Exception] with its
    message ([str(e)]), or the [SystemExit] of [sys.exit], which is a
    [BaseException] and so passes through [except Exception]. *)
Inductive exn : Type :=
| Exception (c : exn_class) (msg : string)
| SystemExit (code : Z).

Definition result (A : Type) : Type := (exn + A)%type.

(** ** bytearray *)

Definition bytearray : Type := list Z.

Definition is_byte (x : Z) : bool := (0 <=? x) && (x <? 256).

Definition byte_range_msg : string := "byte must be in range(0, 256)".

(** [packet.append(x)] *)
Definition bytearray_append (p : bytearray) (x : Z) : result bytearray :=
  if is_byte x then inr (p ++ [x])
  else inl (Exception ValueError byte_range_msg).

(** [packet.extend(xs)] *)
Definition bytearray_extend (p : bytearray) (xs : list Z) : result bytearray :=
  if forallb is_byte xs then inr (p ++ xs)
  else inl (Exception ValueError byte_range_msg).

(** [l * n] on a Python list: [n] copies of [l], none when [n <= 0]. *)
Definition list_mul {A : Type} (l : list A) (n : Z) : list A :=
  concat (repeat l (Z.to_nat n)).

(** [bytearray(b'...')]: the bytes of an ASCII literal. *)
Definition bytes_of (s : string) : bytearray :=
  map (fun c => Z.of_nat (nat_of_ascii c)) (list_ascii_of_string s).

Definition rbind {A B : Type} (r : result A) (k : A -> result B) : result B :=
  match r with
  | inl e => inl e
  | inr a => k a
  end.

(** Lines 31-42 of [turn_off_leds]: the header fields and the packet. *)
Definition hi_of (led_count : Z) : Z := Z.shiftr (led_count - 1) 8.
Definition lo_of (led_count : Z) : Z := Z.land (led_count - 1) 255.
Definition chk_of (hi lo : Z) : Z := Z.land (Z.lxor (Z.lxor hi lo) 85) 255.

Definition build_packet (led_count : Z) : result bytearray :=
  let hi := hi_of led_count in
  let lo := lo_of led_count in
  let chk := chk_of hi lo in
  let packet := bytes_of "Ada" in
  rbind (bytearray_append packet hi) (fun packet =>
  rbind (bytearray_append packet lo) (fun packet =>
  rbind (bytearray_append packet chk) (fun packet =>
  bytearray_extend packet (list_mul [0; 0; 0] led_count)))).


(** ** The serial port, the clock and standard output *)

(** The calls the program can make on pyserial: the constructor
    [serial.Serial(port=, baudrate=, timeout=, dsrdtr=, rtscts=)], which opens
    the port, and the methods of the opened port. *)
Inductive call : Type :=
| Serial (port : string) (baudrate timeout : Z) (dsrdtr rtscts : bool)
| reset_input_buffer
| reset_output_buffer
| write (data : bytearray)
| flush
| read (size : Z)
| close.

(** One entry of the trace: a call on the port with what it raised ([None]
    when it returned), a [time.sleep] (in milliseconds) or a line printed. *)
Inductive event : Type :=
| Call (c : call) (raised : option (exn_class * string))
| Sleep (ms : Z)
| Print (line : string).

Definition trace : Type := list event.

(** The world outside the program: given what has happened so far, it decides
    whether a call on the port returns or raises, and what. *)
Definition world : Type := trace -> call -> option (exn_class * string).

(** Computations: they read the world, extend the trace, and return a value
    or raise. *)
Definition M (A : Type) : Type := world -> trace -> trace * result A.

Definition ret {A : Type} (a : A) : M A := fun _ t => (t, inr a).

Definition raise {A : Type} (e : exn) : M A := fun _ t => (t, inl e).

Definition bind {A B : Type} (m : M A) (k : A -> M B) : M B :=
  fun w t =>
    match m w t with
    | (t', inl e) => (t', inl e)
    | (t', inr a) => k a w t'
    end.

Notation "x <- m ;; k" := (bind m (fun x => k))
  (at level 61, m at next level, right associativity).
Notation "m ;; k" := (bind m (fun _ => k))
  (at level 61, right associativity).

Definition lift {A : Type} (r : result A) : M A := fun _ t => (t, r).

Definition do_call (c : call) : M unit :=
  fun w t =>
    match w t c with
    | Some (cls, msg) => (t ++ [Call c (Some (cls, msg))], inl (Exception cls msg))
    | None => (t ++ [Call c None], inr tt)
    end.

(** [time.sleep] and [print] always return. *)
Definition sleep (ms : Z) : M unit := fun _ t => (t ++ [Sleep ms], inr tt).

Definition print (line : string) : M unit := fun _ t => (t ++ [Print line], inr tt).

(** [try: body  except serial.SerialException as e: ...  except Exception as e: ...] *)
Definition try_except {A : Type} (body : M A)
    (except_serial except_exception : string -> M A) : M A :=
  fun w t =>
    match body w t with
    | (t', inl (Exception SerialException msg)) => except_serial msg w t'
    | (t', inl (Exception _ msg)) => except_exception msg w t'
    | (t', inl (SystemExit code)) => (t', inl (SystemExit code))
    | (t', inr a) => (t', inr a)
    end.

(** [for _ in range(n): body] *)
Fixpoint for_range (n : nat) (body : M unit) : M unit :=
  match n with
  | O => ret tt
  | S k => body ;; for_range k body
  end.

(** ** turn_off_leds *)

Definition turn_off_leds (device : string) (baudrate led_count : Z) : M bool :=
  try_except
    (do_call (Serial device baudrate 2 false false) ;;
     sleep 100 ;;
     do_call reset_input_buffer ;;
     do_call reset_output_buffer ;;
     packet <- lift (build_packet led_count) ;;
     for_range 3
       (do_call (write packet) ;;
        do_call flush ;;
        sleep 50) ;;
     do_call close ;;
     print "✓ LEDs turned off" ;;
     ret true)
    (fun e => print ("⚠ Serial error: " ++ e)%string ;; ret false)
    (fun e => print ("⚠ Error: " ++ e)%string ;; ret false).

(** ** main *)

(** [int(s)] on a [str], for ASCII text: surrounding white space is dropped,
    one sign is allowed, then decimal digits with single underscores between
    them; CPython's default limit of 4300 digits applies.  Anything else
    (text in other scripts included) is a [ValueError] here. *)
Definition is_space (c : ascii) : bool :=
  let n := nat_of_ascii c in
  ((9 <=? n) && (n <=? 13))%nat || (n =? 32)%nat.

Definition digit_of (c : ascii) : option Z :=
  let n := Z.of_nat (nat_of_ascii c) in
  if (48 <=? n) && (n <=? 57) then Some (n - 48) else None.

Fixpoint lstrip (s : string) : string :=
  match s with
  | String c s' => if is_space c then lstrip s' else s
  | EmptyString => s
  end.

Fixpoint all_space (s : string) : bool :=
  match s with
  | String c s' => is_space c && all_space s'
  | EmptyString => true
  end.

Fixpoint parse_digits (s : string) (acc : Z) (n : nat) (after_digit : bool)
    : option (Z * nat) :=
  match s with
  | EmptyString => if after_digit then Some (acc, n) else None
  | String c s' =>
      match digit_of c with
      | Some d => parse_digits s' (10 * acc + d) (S n) true
      | None =>
          if Ascii.eqb c "_" then
            if after_digit then parse_digits s' acc n false else None
          else if after_digit && all_space s then Some (acc, n) else None
      end
  end.

Definition int_max_str_digits : nat := 4300.

Definition py_int (s : string) : result Z :=
  let body := lstrip s in
  let '(sign, digits) :=
    match body with
    | String "-" r => (-1, r)
    | String "+" r => (1, r)
    | _ => (1, body)
    end in
  match parse_digits digits 0 0 false with
  | Some (v, n) =>
      if (int_max_str_digits <? n)%nat
      then inl (Exception ValueError
                  "Exceeds the limit (4300 digits) for integer string conversion")
      else inr (sign * v)
  | None =>
      inl (Exception ValueError
             ("invalid literal for int() with base 10: '" ++ s ++ "'")%string)
  end.

(** [sys.argv[i]] *)
Definition argv_get (argv : list string) (i : nat) : M string :=
  match nth_error argv i with
  | Some s => ret s
  | None => raise (Exception IndexError "list index out of range")
  end.

(** [sys.exit(code)] *)
Definition sys_exit {A : Type} (code : Z) : M A := raise (SystemExit code).

Definition usage : string :=
  "Usage: turn_off_leds.py <device> <baudrate> <led_count>".

Definition main (argv : list string) : M unit :=
  (if Z.of_nat (length argv) <? 4
   then print usage ;; sys_exit 1
   else ret tt) ;;
  device <- argv_get argv 1 ;;
  a2 <- argv_get argv 2 ;;
  baudrate <- lift (py_int a2) ;;
  a3 <- argv_get argv 3 ;;
  led_count <- lift (py_int a3) ;;
  success <- turn_off_leds device baudrate led_count ;;
  sys_exit (if success : bool then 0 else 1).

(** How the process ends: with an exit code, or with an exception that
    nothing caught (the interpreter prints the traceback). *)
Inductive status : Type :=
| Exit (code : Z)
| Uncaught (c : exn_class) (msg : string).

(** [if __name__ == "__main__": main()], from an empty trace. *)
Definition run (argv : list string) (w : world) : trace * status :=
  match main argv w [] with
  | (t, inr _) => (t, Exit 0)
  | (t, inl (SystemExit code)) => (t, Exit code)
  | (t, inl (Exception c msg)) => (t, Uncaught c msg)
  end.

(** Two worlds to run the program in: a port on which every call returns,
    and a device path that cannot be opened. *)
Definition ok_world : world := fun _ _ => None.

Definition no_device : world :=
  fun _ c =>
    match c with
    | Serial port _ _ _ _ =>
        Some (SerialException, ("could not open port " ++ port)%string)
    | _ => None
    end.

(** The packet in closed form. *)
Definition frame_of (led_count : Z) : bytearray :=
  [65; 100; 97; hi_of led_count; lo_of led_count;
   chk_of (hi_of led_count) (lo_of led_count)]
  ++ repeat 0 (3 * Z.to_nat led_count).

(** What a run that meets no fault looks like. *)
Definition prelude (device : string) (baudrate : Z) : trace :=
  [Call (Serial device baudrate 2 false false) None; Sleep 100;
   Call reset_input_buffer None; Call reset_output_buffer None].

Definition send_once (frame : bytearray) : trace :=
  [Call (write frame) None; Call flush None; Sleep 50].

Definition success_trace (device : string) (baudrate : Z) (frame : bytearray)
    : trace :=
  prelude device baudrate
  ++ send_once frame ++ send_once frame ++ send_once frame
  ++ [Call close None; Print "✓ LEDs turned off"].

(** A port whose cable is pulled once it is open: every [write] fails. *)
Definition unplugged : world :=
  fun _ c =>
    match c with
    | write _ => Some (SerialException, "write failed: [Errno 5] Input/output error")
    | _ => None
    end.

(** Does the trace open the port and return without a [close] call? *)
Definition is_open (e : event) : bool :=
  match e with Call (Serial _ _ _ _ _) None => true | _ => false end.

Definition is_close (e : event) : bool :=
  match e with Call close _ => true | _ => false end.

Definition is_write (e : event) : bool :=
  match e with Call (write _) _ => true | _ => false end.

Definition is_read (e : event) : bool :=
  match e with Call (read _) _ => true | _ => false end.

Definition is_Serial (e : event) : bool :=
  match e with Call (Serial _ _ _ _ _) _ => true | _ => false end.

Definition is_closed (e : event) : bool :=
  match e with Call close None => true | _ => false end.

Definition raised_in (e : event) : bool :=
  match e with Call _ (Some _) => true | _ => false end.

Definition leaks_handle (t : trace) : bool :=
  existsb is_open t && negb (existsb is_closed t).

(** ** Reading a trace *)

(** The calls a run makes on the port, in order, whatever they answered. *)
Fixpoint port_calls (t : trace) : list call :=
  match t with
  | [] => []
  | Call c _ :: t' => c :: port_calls t'
  | _ :: t' => port_calls t'
  end.

(** The calls of the [try] body in program order: the three before the
    packet is built and, when it is built, the seven after. *)
Definition script (device : string) (baudrate : Z) (packet : result bytearray)
    : list call :=
  [Serial device baudrate 2 false false; reset_input_buffer; reset_output_buffer]
  ++ match packet with
     | inr frame => [write frame; flush; write frame; flush; write frame; flush;
                     close]
     | inl _ => []
     end.

(** The line a handler prints for an exception of class [cls]. *)
Definition report (cls : exn_class) (msg : string) : string :=
  match cls with
  | SerialException => ("⚠ Serial error: " ++ msg)%string
  | _ => ("⚠ Error: " ++ msg)%string
  end.

Definition is_print (e : event) : bool :=
  match e with Print _ => true | _ => false end.

Definition is_line (line : string) (e : event) : bool :=
  match e with Print l => String.eqb l line | _ => false end.

(** The milliseconds a run asks [time.sleep] for, in total. *)
Fixpoint total_sleep (t : trace) : Z :=
  match t with
  | [] => 0
  | Sleep ms :: t' => ms + total_sleep t'
  | _ :: t' => total_sleep t'
  end.

(** ** Proof automation for runs *)

Arguments build_packet : simpl never.

(** One call on the port: split on what the world answers. *)
Ltac answer w :=
  match goal with
  | |- context [w ?t ?c] =>
      let cls := fresh "cls" in
      let msg := fresh "msg" in
      destruct (w t c) as [[cls msg]|] eqn:?; [destruct cls|]; simpl
  end.

Ltac unfold_run :=
  unfold turn_off_leds; cbn [for_range];
  unfold try_except, bind, do_call, sleep, print, lift, ret.

Ltac in_trace H :=
  simpl in H;
  repeat (destruct H as [H|H]; [try discriminate H; try (now inversion H)|]);
  try contradiction.

(** The last line a run prints, and the call that raised before it. *)
Ltac split_last :=
  match goal with
  | |- exists body, exists line, ?T = _ /\ _ =>
      exists (removelast T); simpl; eexists; split; reflexivity
  end.

Ltac split_fault :=
  match goal with
  | |- exists pre, exists c, exists cls, exists msg, ?T = _ /\ _ =>
      match T with
      | context [Call ?c (Some (?cls, ?msg))] =>
          exists (removelast (removelast T)), c, cls, msg; split; reflexivity
      end
  end.

(** * Properties *)

(** ** The header fields *)

Lemma hi_of_div (n : Z) : hi_of n = (n - 1) / 256.
Proof. unfold hi_of. now rewrite Z.shiftr_div_pow2 by lia. Qed.

Lemma lo_of_mod (n : Z) : lo_of n = (n - 1) mod 256.
Proof. unfold lo_of. change 255 with (Z.ones 8). now rewrite Z.land_ones by lia. Qed.

Lemma land_255_mod (x : Z) : Z.land x 255 = x mod 256.
Proof. change 255 with (Z.ones 8). now rewrite Z.land_ones by lia. Qed.

Lemma land_255_byte (x : Z) : is_byte (Z.land x 255) = true.
Proof.
  rewrite land_255_mod. unfold is_byte.
  pose proof (Z.mod_pos_bound x 256 ltac:(lia)).
  apply andb_true_intro; split; [apply Z.leb_le | apply Z.ltb_lt]; lia.
Qed.

Lemma hi_of_range (n : Z) : 1 <= n <= 65536 -> 0 <= hi_of n < 256.
Proof.
  intros H. rewrite hi_of_div. split.
  - apply Z.div_pos; lia.
  - apply Z.div_lt_upper_bound; lia.
Qed.

Lemma hi_of_negative (n : Z) : n <= 0 -> hi_of n < 0.
Proof.
  intros H. rewrite hi_of_div.
  apply Z.div_lt_upper_bound; lia.
Qed.

Lemma hi_of_too_big (n : Z) : 65536 < n -> 256 <= hi_of n.
Proof.
  intros H. rewrite hi_of_div.
  apply Z.div_le_lower_bound; lia.
Qed.

Lemma is_byte_iff (x : Z) : is_byte x = true <-> 0 <= x < 256.
Proof.
  unfold is_byte. rewrite andb_true_iff, Z.leb_le, Z.ltb_lt. tauto.
Qed.

Lemma is_byte_false (x : Z) : x < 0 \/ 256 <= x -> is_byte x = false.
Proof.
  intros H. destruct (is_byte x) eqn:E; [|reflexivity].
  apply is_byte_iff in E. lia.
Qed.

(** ** [[0, 0, 0] * led_count] *)

Lemma list_mul_zeros_repeat (n : Z) :
  list_mul [0; 0; 0] n = repeat 0 (3 * Z.to_nat n).
Proof.
  unfold list_mul. induction (Z.to_nat n) as [|k IH]; [reflexivity|].
  simpl repeat at 1. simpl concat. rewrite IH.
  replace (3 * S k)%nat with (S (S (S (3 * k)))) by lia. reflexivity.
Qed.

Lemma list_mul_zeros_bytes (n : Z) : forallb is_byte (list_mul [0; 0; 0] n) = true.
Proof.
  rewrite list_mul_zeros_repeat.
  induction (3 * Z.to_nat n)%nat as [|k IH]; [reflexivity|].
  simpl. exact IH.
Qed.

(** ** The packet *)

Lemma build_packet_in_range (n : Z) :
  1 <= n <= 65536 -> build_packet n = inr (frame_of n).
Proof.
  intros H. unfold build_packet, bytearray_append, bytearray_extend, frame_of.
  assert (Hhi : is_byte (hi_of n) = true)
    by (apply is_byte_iff, hi_of_range, H).
  rewrite Hhi. simpl rbind.
  unfold lo_of at 1. rewrite land_255_byte. simpl rbind.
  unfold chk_of at 1. rewrite land_255_byte. simpl rbind.
  rewrite list_mul_zeros_bytes, list_mul_zeros_repeat. reflexivity.
Qed.

Lemma build_packet_out_of_range (n : Z) :
  n <= 0 \/ 65536 < n ->
  build_packet n = inl (Exception ValueError byte_range_msg).
Proof.
  intros H. unfold build_packet, bytearray_append.
  rewrite is_byte_false; [reflexivity|].
  destruct H as [H|H]; [left; now apply hi_of_negative | right; now apply hi_of_too_big].
Qed.

Lemma build_packet_cases (n : Z) :
  build_packet n = inr (frame_of n) \/
  build_packet n = inl (Exception ValueError byte_range_msg).
Proof.
  destruct (Z_le_gt_dec n 0); [right; apply build_packet_out_of_range; lia|].
  destruct (Z_le_gt_dec n 65536); [left; apply build_packet_in_range; lia|].
  right; apply build_packet_out_of_range; lia.
Qed.

Lemma frame_of_length (n : Z) :
  0 <= n -> Z.of_nat (length (frame_of n)) = 6 + 3 * n.
Proof.
  intros H. unfold frame_of. rewrite length_app, repeat_length.
  simpl length. lia.
Qed.


Example build_packet_1 :
  build_packet 1 = inr [65; 100; 97; 0; 0; 85; 0; 0; 0].
Proof. reflexivity. Qed.

(** ** Runs of [turn_off_leds] *)

(** When the packet cannot be built, the run ends in the generic handler
    (or earlier, in either handler, if the port fails first): it returns
    [False], and neither [write] nor [close] is ever called. *)
Lemma turn_off_leds_build_fails (device : string) (baudrate n : Z) (w : world)
    (m : string) :
  build_packet n = inl (Exception ValueError m) ->
  exists r rest,
    turn_off_leds device baudrate n w []
      = (Call (Serial device baudrate 2 false false) r :: rest, inr false) /\
    r = w [] (Serial device baudrate 2 false false) /\
    existsb is_Serial rest = false /\
    existsb is_write rest = false /\
    existsb is_read rest = false /\
    existsb is_close rest = false /\
    (r = None -> existsb raised_in rest = false ->
     Call (Serial device baudrate 2 false false) r :: rest
       = prelude device baudrate ++ [Print ("⚠ Error: " ++ m)%string]).
Proof.
  intros Hb. unfold_run. rewrite Hb. simpl.
  repeat (answer w);
    (do 2 eexists; split; [reflexivity|]; repeat split; try reflexivity;
     simpl; intros; try discriminate; try assumption).
Qed.

(** When the packet is built, every [write] carries it, the run returns a
    boolean, and it returns [True] only along the full trace. *)
Lemma turn_off_leds_build_ok (device : string) (baudrate n : Z) (w : world)
    (frame : bytearray) :
  build_packet n = inr frame ->
  exists r rest b,
    turn_off_leds device baudrate n w []
      = (Call (Serial device baudrate 2 false false) r :: rest, inr b) /\
    r = w [] (Serial device baudrate 2 false false) /\
    existsb is_Serial rest = false /\
    existsb is_read rest = false /\
    (forall d r', In (Call (write d) r') rest -> d = frame) /\
    (b = true ->
     Call (Serial device baudrate 2 false false) r :: rest
       = success_trace device baudrate frame) /\
    (b = false -> r <> None \/ existsb raised_in rest = true) /\
    (b = false -> existsb is_closed rest = false).
Proof.
  intros Hb. unfold_run. rewrite Hb. simpl.
  repeat (answer w);
    (do 3 eexists; split; [reflexivity|]; repeat split; try reflexivity;
     try assumption;
     try (intros d r' Hin; in_trace Hin);
     try (intros; discriminate);
     try (intros _; left; discriminate);
     try (intros _; right; reflexivity)).
Qed.

Lemma turn_off_leds_returns (device : string) (baudrate n : Z) (w : world) :
  exists t b, turn_off_leds device baudrate n w [] = (t, inr b).
Proof.
  destruct (build_packet_cases n) as [Hb|Hb].
  - destruct (turn_off_leds_build_ok device baudrate n w _ Hb)
      as (r & rest & b & Heq & _).
    now exists (Call (Serial device baudrate 2 false false) r :: rest), b.
  - destruct (turn_off_leds_build_fails device baudrate n w _ Hb)
      as (r & rest & Heq & _).
    now exists (Call (Serial device baudrate 2 false false) r :: rest), false.
Qed.

(** ** The wire format *)



(** C2, as stated, fails above the 16-bit range: at [led_count = 65537]
    [hi] is 256, [packet.append(hi)] raises, and no frame exists whose length
    could be [6 + 3 * 65537]. *)
Lemma frame_length_counterexample :
  1 <= 65537 /\
  build_packet 65537 = inl (Exception ValueError byte_range_msg) /\
  ~ (exists frame, build_packet 65537 = inr frame /\
                   Z.of_nat (length frame) = 6 + 3 * 65537).
Proof.
  split; [lia|]. split; [reflexivity|].
  intros (frame & Hb & _). discriminate Hb.
Qed.

(** C2, amended. For [led_count] in [1, 65536] the packet is built and its
    length is exactly [6 + 3 * led_count] bytes. *)
Theorem frame_length_in_range (led_count : Z) :
  1 <= led_count <= 65536 ->
  exists frame,
    build_packet led_count = inr frame /\
    Z.of_nat (length frame) = 6 + 3 * led_count.
Proof.
  intros H. exists (frame_of led_count). split.
  - now apply build_packet_in_range.
  - apply frame_of_length. lia.
Qed.

Lemma frame_length_in_range_witness :
  1 <= 256 <= 65536 /\
  exists frame, build_packet 256 = inr frame /\ Z.of_nat (length frame) = 774.
Proof.
  split; [lia|]. apply (frame_length_in_range 256). lia.
Defined.

(** ** The send operation *)

(** C3. Whenever the send operation returns [True], its trace is: the port
    opened, the 100 ms settle delay, the input and the output buffer
    discarded, then three times the same frame written, flushed and followed by
    a 50 ms pause, then the port closed (and the success line printed).  The
    trace holds exactly three [write] calls and no [read]. *)
Theorem successful_send_trace (device : string) (baudrate led_count : Z)
    (w : world) (t : trace) :
  turn_off_leds device baudrate led_count w [] = (t, inr true) ->
  exists frame,
    build_packet led_count = inr frame /\
    t = [Call (Serial device baudrate 2 false false) None;
         Sleep 100;
         Call reset_input_buffer None;
         Call reset_output_buffer None;
         Call (write frame) None; Call flush None; Sleep 50;
         Call (write frame) None; Call flush None; Sleep 50;
         Call (write frame) None; Call flush None; Sleep 50;
         Call close None;
         Print "✓ LEDs turned off"] /\
    length (filter is_write t) = 3%nat /\
    existsb is_read t = false.
Proof.
  intros Hrun.
  destruct (build_packet_cases led_count) as [Hb|Hb].
  - destruct (turn_off_leds_build_ok device baudrate led_count w _ Hb)
      as (r & rest & b & Heq & _ & _ & _ & _ & Hok & _).
    rewrite Heq in Hrun. inversion Hrun as [[Ht Hres]].
    rewrite Hres in Hok. specialize (Hok eq_refl).
    exists (frame_of led_count). split; [exact Hb|].
    rewrite Hok. repeat split.
  - destruct (turn_off_leds_build_fails device baudrate led_count w _ Hb)
      as (r & rest & Heq & _).
    rewrite Heq in Hrun. discriminate Hrun.
Qed.

Lemma successful_send_trace_witness :
  exists t frame,
    turn_off_leds "/dev/ttyUSB0" 115200 1 ok_world [] = (t, inr true) /\
    build_packet 1 = inr frame /\
    length (filter is_write t) = 3%nat /\
    existsb is_read t = false.
Proof.
  assert (H : turn_off_leds "/dev/ttyUSB0" 115200 1 ok_world []
              = (success_trace "/dev/ttyUSB0" 115200 (frame_of 1), inr true))
    by reflexivity.
  destruct (successful_send_trace _ _ _ _ _ H) as (frame & Hb & _ & H3 & Hr).
  exists (success_trace "/dev/ttyUSB0" 115200 (frame_of 1)), frame.
  exact (conj H (conj Hb (conj H3 Hr))).
Defined.

(** C4 fails on the code: the only [ser.close()] is on the success path.
    With the cable pulled after the port opened, the first [write] raises,
    the handler prints and returns [False], and the opened handle was never
    closed. *)
Theorem close_skipped_on_error :
  turn_off_leds "/dev/ttyUSB0" 115200 1 unplugged [] =
    ([Call (Serial "/dev/ttyUSB0" 115200 2 false false) None;
      Sleep 100;
      Call reset_input_buffer None;
      Call reset_output_buffer None;
      Call (write [65; 100; 97; 0; 0; 85; 0; 0; 0])
        (Some (SerialException, "write failed: [Errno 5] Input/output error"));
      Print "⚠ Serial error: write failed: [Errno 5] Input/output error"],
     inr false) /\
  leaks_handle (fst (turn_off_leds "/dev/ttyUSB0" 115200 1 unplugged [])) = true /\
  leaks_handle (fst (turn_off_leds "/dev/ttyUSB0" 115200 0 ok_world [])) = true.
Proof. repeat split. Qed.

(** The same, for every run: a run that opened the port and returned [False]
    never completed a [close]. *)
Lemma failed_run_leaves_port_open (device : string) (baudrate n : Z)
    (w : world) (t : trace) :
  turn_off_leds device baudrate n w [] = (t, inr false) ->
  existsb is_closed t = false.
Proof.
  intros Hrun.
  destruct (build_packet_cases n) as [Hb|Hb].
  - destruct (turn_off_leds_build_ok device baudrate n w _ Hb)
      as (r & rest & b & Heq & _ & _ & _ & _ & _ & _ & Hc).
    rewrite Heq in Hrun. inversion Hrun as [[Ht Hres]].
    simpl. apply Hc, Hres.
  - destruct (turn_off_leds_build_fails device baudrate n w _ Hb)
      as (r & rest & Heq & _ & _ & _ & _ & Hc & _).
    rewrite Heq in Hrun. inversion Hrun as [Ht].
    simpl. clear - Hc. induction rest as [|e rest IH]; [reflexivity|].
    simpl in *. apply orb_false_iff in Hc as [He Hc].
    rewrite (IH Hc), orb_false_r.
    destruct e as [[] []| |]; try reflexivity; discriminate He.
Qed.

(** C8 fails on the code.  The comments at lines 13 and 18 promise an open
    "with no DTR/RTS reset", and the claim both handshake lines held inactive;
    what the code does, on every invocation and before anything else, is the
    one constructor call [serial.Serial(port=device, baudrate=baudrate,
    timeout=2, dsrdtr=False, rtscts=False)], the only open of the run.  That
    gives the caller's baud rate, no hardware flow control and the two-second
    read timeout; but [dsrdtr] and [rtscts] are the flow-control switches, and
    since [port] is given the constructor opens at once: the program has no
    statement that lowers DTR or RTS before the port is open, so the reset
    signal is not suppressed by anything it does. *)
Theorem open_configuration (device : string) (baudrate led_count : Z) (w : world) :
  exists r rest,
    fst (turn_off_leds device baudrate led_count w [])
      = Call (Serial device baudrate 2 false false) r :: rest /\
    existsb is_Serial rest = false.
Proof.
  destruct (build_packet_cases led_count) as [Hb|Hb].
  - destruct (turn_off_leds_build_ok device baudrate led_count w _ Hb)
      as (r & rest & b & Heq & _ & Hs & _).
    exists r, rest. now rewrite Heq.
  - destruct (turn_off_leds_build_fails device baudrate led_count w _ Hb)
      as (r & rest & Heq & _ & Hs & _).
    exists r, rest. now rewrite Heq.
Qed.

(** C9. For [led_count <= 0], [hi = (led_count - 1) >> 8] is negative,
    [packet.append(hi)] raises [ValueError], no packet is built, and the send
    operation returns [False] without a single [write]; when no call on the
    port raised first, the run ends in the generic handler, which prints the
    error. *)
Theorem nonpositive_led_count_rejected (device : string) (baudrate led_count : Z)
    (w : world) :
  led_count <= 0 ->
  hi_of led_count < 0 /\
  bytearray_append (bytes_of "Ada") (hi_of led_count)
    = inl (Exception ValueError "byte must be in range(0, 256)") /\
  build_packet led_count
    = inl (Exception ValueError "byte must be in range(0, 256)") /\
  exists t,
    turn_off_leds device baudrate led_count w [] = (t, inr false) /\
    existsb is_write t = false /\
    (existsb raised_in t = false ->
     t = [Call (Serial device baudrate 2 false false) None;
          Sleep 100;
          Call reset_input_buffer None;
          Call reset_output_buffer None;
          Print "⚠ Error: byte must be in range(0, 256)"]).
Proof.
  intros H.
  pose proof (hi_of_negative led_count H) as Hhi.
  assert (Hb : build_packet led_count = inl (Exception ValueError byte_range_msg))
    by (apply build_packet_out_of_range; now left).
  split; [exact Hhi|]. split.
  { unfold bytearray_append. rewrite is_byte_false by now left. reflexivity. }
  split; [exact Hb|].
  destruct (turn_off_leds_build_fails device baudrate led_count w _ Hb)
    as (r & rest & Heq & Hr & _ & Hw & _ & _ & Hfull).
  exists (Call (Serial device baudrate 2 false false) r :: rest).
  split; [exact Heq|]. split; [exact Hw|].
  intros Hno. simpl in Hno. apply orb_false_iff in Hno as [Hr0 Hrest].
  destruct r as [e|]; [discriminate Hr0|].
  exact (Hfull eq_refl Hrest).
Qed.

Lemma nonpositive_led_count_rejected_witness :
  0 <= 0 /\
  hi_of 0 < 0 /\
  exists t,
    turn_off_leds "/dev/ttyUSB0" 115200 0 ok_world [] = (t, inr false) /\
    existsb is_write t = false.
Proof.
  split; [lia|].
  destruct (nonpositive_led_count_rejected "/dev/ttyUSB0" 115200 0 ok_world)
    as (Hhi & _ & _ & t & Hrun & Hw & _); [lia|].
  split; [exact Hhi|]. exists t. exact (conj Hrun Hw).
Defined.

(** C10. For [led_count > 65536], [hi = (led_count - 1) >> 8] is above 0xFF
    (the code does not mask it), [packet.append(hi)] raises [ValueError], no
    packet is built, and the send operation returns [False] without a single
    [write]: no truncated or masked frame goes out; when no call on the port
    raised first, the run ends in the generic handler, which prints the
    error. *)
Theorem oversized_led_count_rejected (device : string) (baudrate led_count : Z)
    (w : world) :
  65536 < led_count ->
  255 < hi_of led_count /\
  bytearray_append (bytes_of "Ada") (hi_of led_count)
    = inl (Exception ValueError "byte must be in range(0, 256)") /\
  build_packet led_count
    = inl (Exception ValueError "byte must be in range(0, 256)") /\
  exists t,
    turn_off_leds device baudrate led_count w [] = (t, inr false) /\
    existsb is_write t = false /\
    (existsb raised_in t = false ->
     t = [Call (Serial device baudrate 2 false false) None;
          Sleep 100;
          Call reset_input_buffer None;
          Call reset_output_buffer None;
          Print "⚠ Error: byte must be in range(0, 256)"]).
Proof.
  intros H.
  pose proof (hi_of_too_big led_count H) as Hhi.
  assert (Hb : build_packet led_count = inl (Exception ValueError byte_range_msg))
    by (apply build_packet_out_of_range; now right).
  split; [lia|]. split.
  { unfold bytearray_append. rewrite is_byte_false by now right. reflexivity. }
  split; [exact Hb|].
  destruct (turn_off_leds_build_fails device baudrate led_count w _ Hb)
    as (r & rest & Heq & Hr & _ & Hw & _ & _ & Hfull).
  exists (Call (Serial device baudrate 2 false false) r :: rest).
  split; [exact Heq|]. split; [exact Hw|].
  intros Hno. simpl in Hno. apply orb_false_iff in Hno as [Hr0 Hrest].
  destruct r as [e|]; [discriminate Hr0|].
  exact (Hfull eq_refl Hrest).
Qed.

Lemma oversized_led_count_rejected_witness :
  65536 < 65537 /\
  255 < hi_of 65537 /\
  exists t,
    turn_off_leds "/dev/ttyUSB0" 115200 65537 ok_world [] = (t, inr false) /\
    existsb is_write t = false.
Proof.
  split; [lia|].
  destruct (oversized_led_count_rejected "/dev/ttyUSB0" 115200 65537 ok_world)
    as (Hhi & _ & _ & t & Hrun & Hw & _); [lia|].
  split; [exact Hhi|]. exists t. exact (conj Hrun Hw).
Defined.

(** ** The program *)

Lemma main_usage (argv : list string) (w : world) :
  (length (tl argv) < 3)%nat ->
  main argv w [] = ([Print usage], inl (SystemExit 1)).
Proof.
  intros H. unfold main, bind at 1.
  assert (Hlt : (Z.of_nat (length argv) <? 4) = true).
  { apply Z.ltb_lt. destruct argv; simpl in *; lia. }
  rewrite Hlt. reflexivity.
Qed.

Lemma main_parsed (prog device b n : string) (rest : list string)
    (baudrate led_count : Z) (w : world) (t : trace) (success : bool) :
  py_int b = inr baudrate ->
  py_int n = inr led_count ->
  turn_off_leds device baudrate led_count w [] = (t, inr success) ->
  main (prog :: device :: b :: n :: rest) w []
    = (t, inl (SystemExit (if success then 0 else 1))).
Proof.
  intros Hb Hn Hrun. unfold main.
  assert (Hlt : (Z.of_nat (length (prog :: device :: b :: n :: rest)) <? 4) = false).
  { apply Z.ltb_ge. simpl length. lia. }
  rewrite Hlt. unfold bind, ret, argv_get, lift, sys_exit, raise. simpl.
  rewrite Hb, Hn, Hrun. reflexivity.
Qed.

Lemma run_parsed (prog device b n : string) (rest : list string)
    (baudrate led_count : Z) (w : world) (t : trace) (success : bool) :
  py_int b = inr baudrate ->
  py_int n = inr led_count ->
  turn_off_leds device baudrate led_count w [] = (t, inr success) ->
  run (prog :: device :: b :: n :: rest) w
    = (t, Exit (if success then 0 else 1)).
Proof.
  intros Hb Hn Hrun. unfold run.
  now rewrite (main_parsed _ _ _ _ _ _ _ _ _ _ Hb Hn Hrun).
Qed.

(** C5, as stated, fails: a baud rate that is not a number makes
    [int(sys.argv[2])] raise [ValueError] in [main], outside every [try]; the
    exception leaves the program uncaught, before any port is opened. *)
Lemma malformed_number_escapes :
  run ["turn_off_leds.py"; "/dev/ttyUSB0"; "fast"; "60"] ok_world
    = ([], Uncaught ValueError "invalid literal for int() with base 10: 'fast'").
Proof. reflexivity. Qed.

(** C5, amended. The send operation returns a boolean for every input and
    every behaviour of the port; and an invocation with fewer than three
    positional arguments, or whose baud rate and LED count are integer
    literals, ends with exit code 0 or 1, no exception escaping. *)
Theorem run_resolves_to_exit_code (argv : list string) (w : world) :
  (forall device baudrate led_count w',
      exists t b, turn_off_leds device baudrate led_count w' [] = (t, inr b)) /\
  ((length (tl argv) < 3)%nat \/
   (exists b baudrate n led_count,
       nth_error argv 2 = Some b /\ py_int b = inr baudrate /\
       nth_error argv 3 = Some n /\ py_int n = inr led_count) ->
   snd (run argv w) = Exit 0 \/ snd (run argv w) = Exit 1).
Proof.
  split; [intros; apply turn_off_leds_returns|].
  intros [Hfew | (b & baudrate & n & led_count & H2 & Hb & H3 & Hn)].
  - right. unfold run. now rewrite main_usage.
  - destruct argv as [|prog [|device [|b' [|n' rest]]]]; try discriminate.
    simpl in H2, H3. inversion H2; inversion H3; subst b' n'.
    destruct (turn_off_leds_returns device baudrate led_count w) as (t & ok & Hrun).
    rewrite (run_parsed _ _ _ _ _ _ _ _ _ _ Hb Hn Hrun).
    destruct ok; [left|right]; reflexivity.
Qed.

Lemma run_resolves_to_exit_code_witness :
  (exists b baudrate n led_count,
      nth_error ["turn_off_leds.py"; "/dev/ttyUSB0"; "115200"; "60"] 2 = Some b /\
      py_int b = inr baudrate /\
      nth_error ["turn_off_leds.py"; "/dev/ttyUSB0"; "115200"; "60"] 3 = Some n /\
      py_int n = inr led_count) /\
  (snd (run ["turn_off_leds.py"; "/dev/ttyUSB0"; "115200"; "60"] no_device) = Exit 0 \/
   snd (run ["turn_off_leds.py"; "/dev/ttyUSB0"; "115200"; "60"] no_device) = Exit 1).
Proof.
  assert (H : exists b baudrate n led_count,
      nth_error ["turn_off_leds.py"; "/dev/ttyUSB0"; "115200"; "60"] 2 = Some b /\
      py_int b = inr baudrate /\
      nth_error ["turn_off_leds.py"; "/dev/ttyUSB0"; "115200"; "60"] 3 = Some n /\
      py_int n = inr led_count).
  { exists "115200"%string, 115200, "60"%string, 60. repeat split. }
  split; [exact H|].
  apply (proj2 (run_resolves_to_exit_code _ no_device)). right. exact H.
Defined.

(** C6. With fewer than three positional arguments the program prints the
    usage line and exits with code 1; nothing else happens, so no open of a
    serial port is attempted. *)
Theorem too_few_arguments_usage (argv : list string) (w : world) :
  (length (tl argv) < 3)%nat ->
  run argv w
    = ([Print "Usage: turn_off_leds.py <device> <baudrate> <led_count>"], Exit 1) /\
  existsb is_Serial (fst (run argv w)) = false.
Proof.
  intros H. unfold run. rewrite (main_usage argv w H). split; reflexivity.
Qed.

Lemma too_few_arguments_usage_witness :
  (length (tl ["turn_off_leds.py"; "/dev/ttyUSB0"; "115200"]) < 3)%nat /\
  run ["turn_off_leds.py"; "/dev/ttyUSB0"; "115200"] ok_world
    = ([Print "Usage: turn_off_leds.py <device> <baudrate> <led_count>"], Exit 1).
Proof.
  assert (H : (length (tl ["turn_off_leds.py"; "/dev/ttyUSB0"; "115200"]) < 3)%nat)
    by (simpl; lia).
  split; [exact H|].
  exact (proj1 (too_few_arguments_usage _ ok_world H)).
Defined.

(** C7. In an invocation that reaches the send operation (the baud rate and
    the LED count are integer literals): when the open of the serial device
    raises, the send operation returns [False], having called nothing else on
    the port, and the process exits with code 1; and when the send operation
    returns [True] the process exits with code 0. *)
Theorem open_failure_exit_codes (prog device b n : string) (rest : list string)
    (baudrate led_count : Z) (w : world) :
  py_int b = inr baudrate ->
  py_int n = inr led_count ->
  (w [] (Serial device baudrate 2 false false) <> None ->
   snd (turn_off_leds device baudrate led_count w []) = inr false /\
   length (filter is_Serial (fst (turn_off_leds device baudrate led_count w [])))
     = 1%nat /\
   existsb is_write (fst (turn_off_leds device baudrate led_count w [])) = false /\
   snd (run (prog :: device :: b :: n :: rest) w) = Exit 1) /\
  (snd (turn_off_leds device baudrate led_count w []) = inr true ->
   snd (run (prog :: device :: b :: n :: rest) w) = Exit 0).
Proof.
  intros Hb Hn. split.
  - intros Hopen.
    assert (Hrun : exists t,
      turn_off_leds device baudrate led_count w [] = (t, inr false) /\
      length (filter is_Serial t) = 1%nat /\ existsb is_write t = false).
    { unfold_run.
      destruct (w [] (Serial device baudrate 2 false false)) as [[cls msg]|];
        [|now elim Hopen].
      destruct cls; simpl; eexists; repeat split. }
    destruct Hrun as (t & Hrun & H1 & Hw).
    rewrite (run_parsed _ _ _ _ _ _ _ _ _ _ Hb Hn Hrun), Hrun.
    repeat split; assumption.
  - intros Htrue.
    destruct (turn_off_leds device baudrate led_count w []) as [t res] eqn:Hrun.
    simpl in Htrue. subst res.
    now rewrite (run_parsed _ _ _ _ _ _ _ _ _ _ Hb Hn Hrun).
Qed.

Lemma open_failure_exit_codes_witness :
  py_int "115200" = inr 115200 /\
  py_int "60" = inr 60 /\
  no_device [] (Serial "/dev/nothing" 115200 2 false false) <> None /\
  snd (turn_off_leds "/dev/nothing" 115200 60 no_device []) = inr false /\
  snd (run ["turn_off_leds.py"; "/dev/nothing"; "115200"; "60"] no_device) = Exit 1 /\
  snd (turn_off_leds "/dev/ttyUSB0" 115200 60 ok_world []) = inr true /\
  snd (run ["turn_off_leds.py"; "/dev/ttyUSB0"; "115200"; "60"] ok_world) = Exit 0.
Proof.
  assert (Hb : py_int "115200" = inr 115200) by reflexivity.
  assert (Hn : py_int "60" = inr 60) by reflexivity.
  assert (Ho : no_device [] (Serial "/dev/nothing" 115200 2 false false) <> None)
    by discriminate.
  assert (Ht : snd (turn_off_leds "/dev/ttyUSB0" 115200 60 ok_world []) = inr true)
    by reflexivity.
  destruct (open_failure_exit_codes "turn_off_leds.py" "/dev/nothing"
              "115200" "60" [] 115200 60 no_device Hb Hn) as [Hfail _].
  destruct (Hfail Ho) as (Hf & _ & _ & He).
  destruct (open_failure_exit_codes "turn_off_leds.py" "/dev/ttyUSB0"
              "115200" "60" [] 115200 60 ok_world Hb Hn) as [_ Hok].
  exact (conj Hb (conj Hn (conj Ho (conj Hf (conj He (conj Ht (Hok Ht))))))).
Defined.

(** * Further properties *)

(** ** The shape of every run *)

Lemma turn_off_leds_shape_of (device : string) (baudrate n : Z) (w : world)
    (res : result bytearray) :
  build_packet n = res ->
  (exists frame, res = inr frame) \/
  (exists m, res = inl (Exception ValueError m)) ->
  exists t b,
    turn_off_leds device baudrate n w [] = (t, inr b) /\
    (exists rest, script device baudrate res = port_calls t ++ rest) /\
    (exists body line, t = body ++ [Print line] /\ existsb is_print body = false) /\
    (existsb raised_in t = true ->
     exists pre c cls msg,
       t = pre ++ [Call c (Some (cls, msg)); Print (report cls msg)] /\
       existsb raised_in pre = false) /\
    (total_sleep t <=? 250) = true /\
    (b = true -> total_sleep t = 250) /\
    existsb (is_line usage) t = false /\
    (b = false -> existsb (is_line "✓ LEDs turned off") t = false).
Proof.
  intros Hb [[frame ->] | [m ->]]; unfold_run; rewrite Hb; simpl;
    repeat (answer w);
    (do 2 eexists; split; [reflexivity|];
     split; [eexists; reflexivity|];
     split; [simpl; split_last|];
     split; [simpl; intros Hr; try discriminate Hr; split_fault|];
     split; [reflexivity|];
     split; [intros Hr; try discriminate Hr; reflexivity|];
     split; [reflexivity|];
     intros Hr; try discriminate Hr; reflexivity).
Qed.

Lemma turn_off_leds_shape (device : string) (baudrate n : Z) (w : world) :
  exists t b,
    turn_off_leds device baudrate n w [] = (t, inr b) /\
    (exists rest,
        script device baudrate (build_packet n) = port_calls t ++ rest) /\
    (exists body line, t = body ++ [Print line] /\ existsb is_print body = false) /\
    (existsb raised_in t = true ->
     exists pre c cls msg,
       t = pre ++ [Call c (Some (cls, msg)); Print (report cls msg)] /\
       existsb raised_in pre = false) /\
    (total_sleep t <=? 250) = true /\
    (b = true -> total_sleep t = 250) /\
    existsb (is_line usage) t = false /\
    (b = false -> existsb (is_line "✓ LEDs turned off") t = false).
Proof.
  apply turn_off_leds_shape_of; [reflexivity|].
  destruct (build_packet_cases n) as [Hb|Hb]; rewrite Hb; eauto.
Qed.

Lemma true_run_trace (device : string) (baudrate n : Z) (w : world) (t : trace) :
  turn_off_leds device baudrate n w [] = (t, inr true) ->
  build_packet n = inr (frame_of n) /\
  t = success_trace device baudrate (frame_of n).
Proof.
  intros Hrun.
  destruct (build_packet_cases n) as [Hb|Hb].
  - destruct (turn_off_leds_build_ok device baudrate n w _ Hb)
      as (r & rest & b & Heq & _ & _ & _ & _ & Hok & _).
    rewrite Heq in Hrun. inversion Hrun as [[Ht Hres]].
    split; [exact Hb|]. apply Hok, Hres.
  - destruct (turn_off_leds_build_fails device baudrate n w _ Hb)
      as (r & rest & Heq & _).
    rewrite Heq in Hrun. discriminate Hrun.
Qed.

Lemma build_packet_built (n : Z) (frame : bytearray) :
  build_packet n = inr frame -> 1 <= n <= 65536 /\ frame = frame_of n.
Proof.
  intros Hb.
  destruct (Z_le_gt_dec n 0) as [Hlo|Hlo];
    [rewrite build_packet_out_of_range in Hb by (now left); discriminate|].
  destruct (Z_le_gt_dec n 65536) as [Hhi|Hhi];
    [|rewrite build_packet_out_of_range in Hb by (right; lia); discriminate].
  split; [lia|].
  rewrite build_packet_in_range in Hb by lia. now inversion Hb.
Qed.

Lemma line_not_printed (line : string) (t : trace) :
  existsb (is_line line) t = false -> ~ In (Print line) t.
Proof.
  intros Hno Hin.
  assert (Hex : existsb (is_line line) t = true).
  { apply existsb_exists. exists (Print line). split; [exact Hin|].
    simpl. apply String.eqb_refl. }
  congruence.
Qed.

(** ** The send operation, further *)

(** X1. The send operation returns [True] exactly when [led_count] is in
    [1, 65536] and no call on the port raised. *)
Theorem success_iff_in_range_and_no_fault (device : string)
    (baudrate led_count : Z) (w : world) :
  snd (turn_off_leds device baudrate led_count w []) = inr true <->
  1 <= led_count <= 65536 /\
  existsb raised_in (fst (turn_off_leds device baudrate led_count w [])) = false.
Proof.
  destruct (turn_off_leds_returns device baudrate led_count w) as (t & b & Hrun).
  rewrite Hrun. simpl. split.
  - intros Hb. inversion Hb; subst b.
    destruct (true_run_trace _ _ _ _ _ Hrun) as [Hbuild ->].
    split; [apply (build_packet_built _ _ Hbuild)|reflexivity].
  - intros [Hrange Hno]. destruct b; [reflexivity|exfalso].
    pose proof (build_packet_in_range led_count Hrange) as Hbuild.
    destruct (turn_off_leds_build_ok device baudrate led_count w _ Hbuild)
      as (r & rest & b & Heq & _ & _ & _ & _ & _ & Hfalse & _).
    rewrite Heq in Hrun. inversion Hrun; subst t b.
    simpl in Hno. apply orb_false_iff in Hno as [Hr Hrest].
    destruct (Hfalse eq_refl) as [Hne|Hraised].
    + destruct r; [discriminate Hr|now apply Hne].
    + congruence.
Qed.

(** X2. Whatever the port does, the calls a run makes on it are an initial
    segment of the fixed script: open, reset input, reset output, then (when
    the packet was built) write, flush, write, flush, write, flush, close.
    Nothing is called out of order, twice, or beyond that. *)
Theorem port_calls_follow_script (device : string) (baudrate led_count : Z)
    (w : world) :
  exists rest,
    script device baudrate (build_packet led_count)
      = port_calls (fst (turn_off_leds device baudrate led_count w [])) ++ rest.
Proof.
  destruct (turn_off_leds_shape device baudrate led_count w)
    as (t & b & Hrun & Hscript & _).
  now rewrite Hrun.
Qed.

(** X3. The first call that raises ends the run: nothing raised before it,
    nothing is called after it, and the only thing that follows is the
    handler's line, ["⚠ Serial error: "] with the message for a
    [SerialException] and ["⚠ Error: "] with the message for anything else. *)
Theorem first_fault_ends_run (device : string) (baudrate led_count : Z)
    (w : world) (c : call) (e : exn_class * string) :
  In (Call c (Some e)) (fst (turn_off_leds device baudrate led_count w [])) ->
  exists pre c' cls msg,
    fst (turn_off_leds device baudrate led_count w [])
      = pre ++ [Call c' (Some (cls, msg)); Print (report cls msg)] /\
    existsb raised_in pre = false /\
    snd (turn_off_leds device baudrate led_count w []) = inr false.
Proof.
  destruct (turn_off_leds_shape device baudrate led_count w)
    as (t & b & Hrun & _ & _ & Hfault & _).
  rewrite Hrun. simpl. intros Hin.
  assert (Hraised : existsb raised_in t = true).
  { apply existsb_exists. exists (Call c (Some e)). now split. }
  destruct (Hfault Hraised) as (pre & c' & cls & msg & Ht & Hpre).
  exists pre, c', cls, msg. repeat split; try assumption.
  destruct b; [exfalso|reflexivity].
  destruct (true_run_trace _ _ _ _ _ Hrun) as [_ Hs].
  rewrite Hs in Hraised. discriminate Hraised.
Qed.

Lemma first_fault_ends_run_witness :
  exists pre c' cls msg,
    fst (turn_off_leds "/dev/ttyUSB0" 115200 1 unplugged [])
      = pre ++ [Call c' (Some (cls, msg)); Print (report cls msg)] /\
    existsb raised_in pre = false /\
    snd (turn_off_leds "/dev/ttyUSB0" 115200 1 unplugged []) = inr false.
Proof.
  apply (first_fault_ends_run "/dev/ttyUSB0" 115200 1 unplugged
           (write [65; 100; 97; 0; 0; 85; 0; 0; 0])
           (SerialException, "write failed: [Errno 5] Input/output error")).
  simpl. tauto.
Defined.

(** X4. Every run of the send operation prints exactly one line, and that
    line is the last thing the run does. *)
Theorem one_line_per_run (device : string) (baudrate led_count : Z) (w : world) :
  exists body line,
    fst (turn_off_leds device baudrate led_count w []) = body ++ [Print line] /\
    existsb is_print body = false.
Proof.
  destruct (turn_off_leds_shape device baudrate led_count w)
    as (t & b & Hrun & _ & Hline & _).
  now rewrite Hrun.
Qed.

(** X5. A [close] of the port returns in a run exactly when the run returns
    [True]: every successful run closes the port, no failed one does. *)
Theorem closed_iff_success (device : string) (baudrate led_count : Z) (w : world) :
  existsb is_closed (fst (turn_off_leds device baudrate led_count w [])) = true <->
  snd (turn_off_leds device baudrate led_count w []) = inr true.
Proof.
  destruct (turn_off_leds_returns device baudrate led_count w) as (t & b & Hrun).
  rewrite Hrun. simpl. destruct b.
  - destruct (true_run_trace _ _ _ _ _ Hrun) as [_ ->]. split; reflexivity.
  - rewrite (failed_run_leaves_port_open _ _ _ _ _ Hrun). split; discriminate.
Qed.

(** X6. A run asks [time.sleep] for at most 250 ms in total (100 ms after the
    open, 50 ms after each flush), and for exactly 250 ms when it returns
    [True]. *)
Theorem sleep_budget (device : string) (baudrate led_count : Z) (w : world) :
  total_sleep (fst (turn_off_leds device baudrate led_count w [])) <= 250 /\
  (snd (turn_off_leds device baudrate led_count w []) = inr true ->
   total_sleep (fst (turn_off_leds device baudrate led_count w [])) = 250).
Proof.
  destruct (turn_off_leds_shape device baudrate led_count w)
    as (t & b & Hrun & _ & _ & _ & Hle & Heq & _).
  rewrite Hrun. simpl. split.
  - now apply Z.leb_le.
  - intros Hb. apply Heq. now inversion Hb.
Qed.

(** ** The packet, further *)

Lemma lxor_bytes (a b : Z) :
  0 <= a < 256 -> 0 <= b < 256 -> 0 <= Z.lxor a b < 256.
Proof.
  intros Ha Hb.
  assert (E : Z.land (Z.lxor a b) 255 = Z.lxor a b).
  { assert (Hhigh : forall x i, 0 <= x < 256 -> 8 <= i -> Z.testbit x i = false).
    { intros x i Hx Hi. rewrite <- (Z.mod_small x (2 ^ 8)) by lia.
      apply Z.mod_pow2_bits_high. lia. }
    apply Z.bits_inj'. intros i Hi.
    rewrite Z.land_spec, Z.lxor_spec. change 255 with (Z.ones 8).
    destruct (Z_lt_dec i 8) as [Hlow|Hup].
    - rewrite Z.ones_spec_low by lia. apply andb_true_r.
    - rewrite Z.ones_spec_high by lia.
      rewrite (Hhigh a i), (Hhigh b i) by lia. reflexivity. }
  rewrite <- E, land_255_mod. apply Z.mod_pos_bound. lia.
Qed.

Lemma lo_of_range (n : Z) : 0 <= lo_of n < 256.
Proof. rewrite lo_of_mod. apply Z.mod_pos_bound. lia. Qed.

Lemma chk_of_range (hi lo : Z) : 0 <= chk_of hi lo < 256.
Proof. unfold chk_of. rewrite land_255_mod. apply Z.mod_pos_bound. lia. Qed.

(** X7. The header carries the count: for [led_count] in [1, 65536], bytes 3
    and 4 of the packet are the high and the low byte of [led_count - 1], so
    a receiver gets the count back as [256 * hi + lo + 1]. *)
Theorem header_decodes_led_count (led_count : Z) :
  1 <= led_count <= 65536 ->
  exists frame hi lo,
    build_packet led_count = inr frame /\
    nth_error frame 3 = Some hi /\
    nth_error frame 4 = Some lo /\
    0 <= hi < 256 /\ 0 <= lo < 256 /\
    256 * hi + lo + 1 = led_count.
Proof.
  intros H. exists (frame_of led_count), (hi_of led_count), (lo_of led_count).
  split; [now apply build_packet_in_range|].
  split; [reflexivity|]. split; [reflexivity|].
  split; [now apply hi_of_range|]. split; [apply lo_of_range|].
  rewrite hi_of_div, lo_of_mod.
  pose proof (Z.div_mod (led_count - 1) 256 ltac:(lia)). lia.
Qed.

Lemma header_decodes_led_count_witness :
  1 <= 300 <= 65536 /\
  exists frame hi lo,
    build_packet 300 = inr frame /\
    nth_error frame 3 = Some hi /\
    nth_error frame 4 = Some lo /\
    0 <= hi < 256 /\ 0 <= lo < 256 /\
    256 * hi + lo + 1 = 300.
Proof.
  split; [lia|]. apply (header_decodes_led_count 300). lia.
Defined.

(** X8. The checksum passes the receiver's test: for [led_count] in
    [1, 65536], the masking in [chk] loses nothing, and bytes 3, 4 and 5 of the
    packet XOR to 0x55. *)
Theorem checksum_validates (led_count : Z) :
  1 <= led_count <= 65536 ->
  exists frame hi lo chk,
    build_packet led_count = inr frame /\
    nth_error frame 3 = Some hi /\
    nth_error frame 4 = Some lo /\
    nth_error frame 5 = Some chk /\
    chk = Z.lxor (Z.lxor hi lo) 85 /\
    Z.lxor (Z.lxor hi lo) chk = 85.
Proof.
  intros H.
  exists (frame_of led_count), (hi_of led_count), (lo_of led_count),
         (chk_of (hi_of led_count) (lo_of led_count)).
  split; [now apply build_packet_in_range|].
  do 3 (split; [reflexivity|]).
  pose proof (hi_of_range led_count H) as Hhi.
  pose proof (lo_of_range led_count) as Hlo.
  pose proof (lxor_bytes _ _ Hhi Hlo) as Hx.
  assert (Hchk : chk_of (hi_of led_count) (lo_of led_count)
                 = Z.lxor (Z.lxor (hi_of led_count) (lo_of led_count)) 85).
  { unfold chk_of. rewrite land_255_mod. apply Z.mod_small.
    apply lxor_bytes; [exact Hx|lia]. }
  split; [exact Hchk|].
  rewrite Hchk, <- Z.lxor_assoc, Z.lxor_nilpotent. apply Z.lxor_0_l.
Qed.

Lemma checksum_validates_witness :
  1 <= 300 <= 65536 /\
  exists frame hi lo chk,
    build_packet 300 = inr frame /\
    nth_error frame 3 = Some hi /\
    nth_error frame 4 = Some lo /\
    nth_error frame 5 = Some chk /\
    chk = Z.lxor (Z.lxor hi lo) 85 /\
    Z.lxor (Z.lxor hi lo) chk = 85.
Proof.
  split; [lia|]. apply (checksum_validates 300). lia.
Defined.

(** X9. Whenever a packet is built at all, [led_count] was in [1, 65536],
    every element of the packet is a byte, and the packet holds the six header
    bytes and three bytes per LED. *)
Theorem built_packet_invariant (led_count : Z) (frame : bytearray) :
  build_packet led_count = inr frame ->
  1 <= led_count <= 65536 /\
  Forall (fun x => 0 <= x < 256) frame /\
  Z.of_nat (length frame) = 6 + 3 * led_count.
Proof.
  intros Hb. destruct (build_packet_built _ _ Hb) as [Hrange ->].
  split; [exact Hrange|]. split; [|apply frame_of_length; lia].
  pose proof (hi_of_range led_count Hrange).
  pose proof (lo_of_range led_count).
  pose proof (chk_of_range (hi_of led_count) (lo_of led_count)).
  unfold frame_of. apply Forall_app. split.
  - repeat constructor; lia.
  - apply Forall_forall. intros x Hx. apply repeat_spec in Hx. lia.
Qed.

Lemma built_packet_invariant_witness :
  build_packet 2 = inr [65; 100; 97; 0; 1; 84; 0; 0; 0; 0; 0; 0] /\
  1 <= 2 <= 65536 /\
  Forall (fun x => 0 <= x < 256) [65; 100; 97; 0; 1; 84; 0; 0; 0; 0; 0; 0] /\
  Z.of_nat (length [65; 100; 97; 0; 1; 84; 0; 0; 0; 0; 0; 0]) = 6 + 3 * 2.
Proof.
  assert (H : build_packet 2 = inr [65; 100; 97; 0; 1; 84; 0; 0; 0; 0; 0; 0])
    by reflexivity.
  exact (conj H (built_packet_invariant 2 _ H)).
Defined.

(** ** The program, further *)

Lemma py_int_cases (s : string) :
  (exists z, py_int s = inr z) \/
  (exists m, py_int s = inl (Exception ValueError m)).
Proof.
  unfold py_int.
  match goal with
  | |- context [let '(a, b) := ?X in _] => destruct X as [sign digits]
  end.
  destruct (parse_digits digits 0 0 false) as [[v k]|]; [|eauto].
  destruct (int_max_str_digits <? k)%nat; eauto.
Qed.

Lemma argv_four (argv : list string) :
  ~ (length (tl argv) < 3)%nat ->
  exists prog device b n rest, argv = prog :: device :: b :: n :: rest.
Proof.
  intros H.
  destruct argv as [|prog [|device [|b [|n rest]]]]; simpl in H; try lia.
  now exists prog, device, b, n, rest.
Qed.

Lemma run_malformed (prog device b n : string) (rest : list string) (w : world) :
  (exists m, py_int b = inl (Exception ValueError m)) \/
  (exists m, py_int n = inl (Exception ValueError m)) ->
  exists m, run (prog :: device :: b :: n :: rest) w = ([], Uncaught ValueError m).
Proof.
  intros H. unfold run, main.
  assert (Hlt : (Z.of_nat (length (prog :: device :: b :: n :: rest)) <? 4) = false).
  { apply Z.ltb_ge. simpl length. lia. }
  rewrite Hlt. unfold bind, ret, argv_get, lift, sys_exit, raise. simpl.
  destruct (py_int_cases b) as [[bz Hb]|[m Hb]]; rewrite Hb.
  - destruct H as [[m H]|[m H]]; [congruence|]. rewrite H. eauto.
  - eauto.
Qed.

(** Every way a run of the program can end. *)
Lemma run_cases (argv : list string) (w : world) :
  ((length (tl argv) < 3)%nat /\ run argv w = ([Print usage], Exit 1)) \/
  (~ (length (tl argv) < 3)%nat /\
   exists m, run argv w = ([], Uncaught ValueError m)) \/
  (exists prog device b n rest baudrate led_count (ok : bool),
      argv = prog :: device :: b :: n :: rest /\
      py_int b = inr baudrate /\ py_int n = inr led_count /\
      run argv w = (fst (turn_off_leds device baudrate led_count w []),
                    Exit (if ok then 0 else 1)) /\
      snd (turn_off_leds device baudrate led_count w []) = inr ok).
Proof.
  destruct (Compare_dec.lt_dec (length (tl argv)) 3) as [Hfew|Hmany].
  - left. split; [exact Hfew|]. unfold run. now rewrite main_usage.
  - right. destruct (argv_four argv Hmany) as (prog & device & b & n & rest & ->).
    destruct (py_int_cases b) as [[bz Hb]|Hb];
      [|left; split; [exact Hmany|]; apply run_malformed; now left].
    destruct (py_int_cases n) as [[nz Hn]|Hn];
      [|left; split; [exact Hmany|]; apply run_malformed; now right].
    right. destruct (turn_off_leds_returns device bz nz w) as (t & ok & Hrun).
    exists prog, device, b, n, rest, bz, nz, ok.
    rewrite (run_parsed _ _ _ _ _ _ _ _ _ _ Hb Hn Hrun), Hrun. auto.
Qed.

(** X10. The program exits with code 0 exactly when it printed the success
    line ["✓ LEDs turned off"]. *)
Theorem exit_zero_iff_success_line (argv : list string) (w : world) :
  snd (run argv w) = Exit 0 <->
  In (Print "✓ LEDs turned off") (fst (run argv w)).
Proof.
  destruct (run_cases argv w)
    as [[_ Hrun] | [[_ [m Hrun]] |
        (prog & device & b & n & rest & bz & nz & ok & _ & _ & _ & Hrun & Hok)]].
  - rewrite Hrun. simpl. split; [discriminate|].
    intros [H|[]]. discriminate H.
  - rewrite Hrun. simpl. split; [discriminate|tauto].
  - rewrite Hrun. simpl.
    destruct (turn_off_leds_shape device bz nz w)
      as (t & b' & Ht & _ & _ & _ & _ & _ & _ & Hline).
    rewrite Ht in Hok |- *. simpl in Hok |- *. inversion Hok; subst b'.
    destruct ok.
    + destruct (true_run_trace _ _ _ _ _ Ht) as [_ ->].
      split; [intros _; simpl; tauto | reflexivity].
    + split; [discriminate|].
      intros Hin. now apply (line_not_printed _ _ (Hline eq_refl)) in Hin.
Qed.

(** X11. A run of the program ends in one of three ways: exit code 0, exit
    code 1, or an uncaught [ValueError].  No other exit code occurs, and
    [sys.argv] is never indexed out of range. *)
Theorem run_ends_in_three_ways (argv : list string) (w : world) :
  snd (run argv w) = Exit 0 \/
  snd (run argv w) = Exit 1 \/
  exists m, snd (run argv w) = Uncaught ValueError m.
Proof.
  destruct (run_cases argv w)
    as [[_ Hrun] | [[_ [m Hrun]] |
        (prog & device & b & n & rest & bz & nz & ok & _ & _ & _ & Hrun & _)]];
    rewrite Hrun; simpl.
  - right. now left.
  - right. right. now exists m.
  - destruct ok; [now left | right; now left].
Qed.

(** X12. When an exception escapes the program, nothing has happened yet:
    nothing was printed and no call was made on the port.  It can only be the
    [ValueError] of a conversion of the baud rate or the LED count, with at
    least three positional arguments given. *)
Theorem uncaught_means_no_io (argv : list string) (w : world)
    (c : exn_class) (m : string) :
  snd (run argv w) = Uncaught c m ->
  fst (run argv w) = [] /\ c = ValueError /\ (3 <= length (tl argv))%nat.
Proof.
  destruct (run_cases argv w)
    as [[_ Hrun] | [[Hmany [m' Hrun]] |
        (prog & device & b & n & rest & bz & nz & ok & _ & _ & _ & Hrun & _)]];
    rewrite Hrun; simpl; intros H.
  - discriminate H.
  - inversion H. repeat split. lia.
  - destruct ok; discriminate H.
Qed.

Lemma uncaught_means_no_io_witness :
  snd (run ["turn_off_leds.py"; "/dev/ttyUSB0"; "115200"; "many"] ok_world)
    = Uncaught ValueError "invalid literal for int() with base 10: 'many'" /\
  fst (run ["turn_off_leds.py"; "/dev/ttyUSB0"; "115200"; "many"] ok_world) = [].
Proof.
  assert (H : snd (run ["turn_off_leds.py"; "/dev/ttyUSB0"; "115200"; "many"] ok_world)
              = Uncaught ValueError "invalid literal for int() with base 10: 'many'")
    by reflexivity.
  exact (conj H (proj1 (uncaught_means_no_io _ _ _ _ H))).
Defined.

(** X13. Arguments after the third positional one are ignored: the run is
    the same with and without them. *)
Theorem extra_arguments_ignored (prog device b n : string) (rest : list string)
    (w : world) :
  run (prog :: device :: b :: n :: rest) w = run [prog; device; b; n] w.
Proof.
  unfold run, main.
  assert (Hlt : (Z.of_nat (length (prog :: device :: b :: n :: rest)) <? 4) = false).
  { apply Z.ltb_ge. simpl length. lia. }
  assert (Hlt' : (Z.of_nat (length [prog; device; b; n]) <? 4) = false)
    by reflexivity.
  rewrite Hlt, Hlt'. reflexivity.
Qed.

(** X14. The usage line is printed exactly when fewer than three positional
    arguments are given. *)
Theorem usage_iff_too_few (argv : list string) (w : world) :
  In (Print "Usage: turn_off_leds.py <device> <baudrate> <led_count>")
     (fst (run argv w)) <->
  (length (tl argv) < 3)%nat.
Proof.
  destruct (run_cases argv w)
    as [[Hfew Hrun] | [[Hmany [m Hrun]] |
        (prog & device & b & n & rest & bz & nz & ok & -> & _ & _ & Hrun & _)]];
    rewrite Hrun; simpl fst.
  - split; [intros _; exact Hfew | intros _; simpl; tauto].
  - split; [intros [] | intros H; now elim Hmany].
  - destruct (turn_off_leds_shape device bz nz w)
      as (t & b' & Ht & _ & _ & _ & _ & _ & Husage & _).
    rewrite Ht. simpl fst. split.
    + intros Hin. now apply (line_not_printed _ _ Husage) in Hin.
    + simpl. lia.
Qed.
